(** * Factory method example: mail templates and mailers

    A shallow embedding of [src/design_patterns/factory_design_principle.ts].

    The program has two product classes implementing [MailTemplate], an
    abstract creator class [Mailer] with one abstract factory method and one
    shared method [sendMail], two concrete creators, a function [clientCode]
    that prints what [sendMail] returns, and three top-level statements.

    A TypeScript method may write to the console, change other state or
    throw.  Methods are therefore embedded as computations over a world
    (what has been written to standard output, and the rest of the program
    state), returning a value or throwing.  The abstract members of
    [MailTemplate] and [Mailer] are record fields, so statements quantified
    over [Mailer] range over every possible subclass, not only the two of
    the file.

    Values have their declared types: a factory call that returns, returns a
    product object, and a [generate()] call that returns, returns a string.
    A subclass that hands out [null] or [undefined] against its declared
    type is not represented. *)

From Stdlib Require Import String Ascii List.
Import ListNotations.

Local Open Scope list_scope.
Local Open Scope string_scope.

(** ** Effects *)

Section Program.

(** Whatever mutable state exists besides standard output.  The file itself
    declares none; a subclass written elsewhere could. *)
Context {Store : Type}.

Record World : Type := mkWorld {
  stdout : string;   (* the characters written to standard output so far *)
  store : Store
}.

(** How a call ends: with a value, or with a thrown exception; either way
    in some world. *)
Inductive Outcome (A : Type) : Type :=
| Returned (a : A) (w : World)
| Thrown (e : string) (w : World).

Arguments Returned {A} a w.
Arguments Thrown {A} e w.

Definition Eff (A : Type) : Type := World -> Outcome A.

Definition ret {A : Type} (a : A) : Eff A :=
  fun w => Returned a w.

Definition bind {A B : Type} (c : Eff A) (k : A -> Eff B) : Eff B :=
  fun w =>
    match c w with
    | Returned a w' => k a w'
    | Thrown e w' => Thrown e w'
    end.

Definition throw {A : Type} (e : string) : Eff A :=
  fun w => Thrown e w.

Notation "x <- c ;; k" := (bind c (fun x => k))
  (at level 61, c at next level, right associativity).
Notation "c ;; k" := (bind c (fun _ => k))
  (at level 61, right associativity).

(** The value of an outcome passed through [f]; the world is kept. *)
Definition map_outcome {A B : Type} (f : A -> B) (o : Outcome A) : Outcome B :=
  match o with
  | Returned a w => Returned (f a) w
  | Thrown e w => Thrown e w
  end.

(** The line feed that [console.log] puts after its argument. *)
Definition LF : string := String (ascii_of_nat 10) EmptyString.

(** [console.log(s)]: [s] and a line feed are appended to standard output. *)
Definition console_log (s : string) : Eff unit :=
  fun w => Returned tt {| stdout := stdout w ++ s ++ LF; store := store w |}.

(** The lines of an output: every line feed ends a line. *)
Fixpoint lines (s : string) : list string :=
  match s with
  | EmptyString => []
  | String c s' =>
      if Ascii.eqb c (ascii_of_nat 10) then EmptyString :: lines s'
      else match lines s' with
           | [] => [String c EmptyString]
           | l :: ls => String c l :: ls
           end
  end.

(** Calls made one after the other, their results collected in order. *)
Fixpoint sequence {A : Type} (cs : list (Eff A)) : Eff (list A) :=
  match cs with
  | [] => ret []
  | c :: cs' => a <- c ;; r <- sequence cs' ;; ret (a :: r)
  end.

(** ** Products *)

(** [interface MailTemplate { generate(): string; }] *)
Record MailTemplate : Type := {
  generate : Eff string
}.

(** [class WelcomeMailTemplate implements MailTemplate] *)
Definition WelcomeMailTemplate : MailTemplate := {|
  generate := ret "Welcome aboard! Thanks for signing up!"
|}.

(** [class NewsLetterMailTemplate implements MailTemplate] *)
Definition NewsLetterMailTemplate : MailTemplate := {|
  generate := ret "Please enjoy our newsletter!"
|}.

(** ** Creators *)

(** [abstract class Mailer]: the abstract factory method is the field; the
    method every subclass inherits is [sendMail] below. *)
Record Mailer : Type := {
  generateMailTemplate : Eff MailTemplate
}.

(** [Mailer.sendMail], lines 44-47. *)
Definition sendMail (this : Mailer) : Eff string :=
  mailTemplate <- generateMailTemplate this ;;
  text <- generate mailTemplate ;;
  ret ("Sending the following mail : " ++ text).

(** [class WelcomeMailGenerator extends Mailer] *)
Definition WelcomeMailGenerator : Mailer := {|
  generateMailTemplate := ret WelcomeMailTemplate
|}.

(** [class NewsLetterMailGenerator extends Mailer] *)
Definition NewsLetterMailGenerator : Mailer := {|
  generateMailTemplate := ret NewsLetterMailTemplate
|}.

(** ** Client code and the top-level statements *)

(** [function clientCode(mailer: Mailer)], lines 71-73. *)
Definition clientCode (mailer : Mailer) : Eff unit :=
  line <- sendMail mailer ;;
  console_log line.

(** Lines 79-81. *)
Definition main : Eff unit :=
  clientCode WelcomeMailGenerator ;;
  console_log "---" ;;
  clientCode NewsLetterMailGenerator.

(** The expression [m.generateMailTemplate().generate()]. *)
Definition produced_text (m : Mailer) : Eff string :=
  mailTemplate <- generateMailTemplate m ;;
  generate mailTemplate.

(** ** Observations on outcomes *)

(** The call returned (it did not throw). *)
Definition returned {A : Type} (o : Outcome A) : bool :=
  match o with
  | Returned _ _ => true
  | Thrown _ _ => false
  end.

(** The world a call ends in. *)
Definition final_world {A : Type} (o : Outcome A) : World :=
  match o with
  | Returned _ w => w
  | Thrown _ w => w
  end.

(** The text each product class of the file returns. *)
Definition fixed_text (t : MailTemplate) (r : string) : Prop :=
  (t = WelcomeMailTemplate /\ r = "Welcome aboard! Thanks for signing up!")
  \/ (t = NewsLetterMailTemplate /\ r = "Please enjoy our newsletter!").

(** One of the two product classes of the file. *)
Definition provided_product (t : MailTemplate) : Prop :=
  t = WelcomeMailTemplate \/ t = NewsLetterMailTemplate.

(** ** Subclasses that are not in the file

    Used to exercise the statements that hold for every [Mailer]. *)

(** A creator whose factory method writes a line before it instantiates the
    product:
    [generateMailTemplate() { console.log("creating"); return new WelcomeMailTemplate(); }] *)
Definition LoggingMailer : Mailer := {|
  generateMailTemplate := console_log "creating" ;; ret WelcomeMailTemplate
|}.

(** A creator whose factory method throws:
    [generateMailTemplate(): MailTemplate { throw new Error("no template"); }] *)
Definition FailingMailer : Mailer := {|
  generateMailTemplate := throw "no template"
|}.

(** A product that builds the welcome text from two pieces, and its creator. *)
Definition SplitWelcomeTemplate : MailTemplate := {|
  generate :=
    greeting <- ret "Welcome aboard!" ;;
    ret (greeting ++ " Thanks for signing up!")
|}.

Definition SplitWelcomeMailer : Mailer := {|
  generateMailTemplate := ret SplitWelcomeTemplate
|}.

(** A product whose [generate()] throws, and a creator that writes a line
    and then hands out that product:
    [generate(): string { throw new Error("no text"); }] *)
Definition BrokenTemplate : MailTemplate := {|
  generate := throw "no text"
|}.

Definition BrokenTemplateMailer : Mailer := {|
  generateMailTemplate := console_log "creating" ;; ret BrokenTemplate
|}.

(** ** Observations on text *)

(** No line feed occurs in [s]. *)
Fixpoint single_line (s : string) : bool :=
  match s with
  | EmptyString => true
  | String c s' =>
      if Ascii.eqb c (ascii_of_nat 10) then false else single_line s'
  end.

(** The output is empty or its last character is a line feed: no line is
    left open. *)
Fixpoint ends_lines (s : string) : bool :=
  match s with
  | EmptyString => true
  | String c s' =>
      match s' with
      | EmptyString => Ascii.eqb c (ascii_of_nat 10)
      | String _ _ => ends_lines s'
      end
  end.

(** What [console.log] writes for the texts of a list, one call each, in
    order. *)
Fixpoint written (ss : list string) : string :=
  match ss with
  | [] => EmptyString
  | s :: ss' => s ++ LF ++ written ss'
  end.

(** [sendMail()] of [m] returns [s] whatever the world, and changes
    nothing. *)
Definition sends (m : Mailer) (s : string) : Prop :=
  forall w : World, sendMail m w = Returned s w.

(** ** Auxiliary facts *)

Lemma string_append_assoc (a b c : string) : (a ++ b) ++ c = a ++ b ++ c.
Proof.
  induction a as [|ch a IH]; simpl.
  - reflexivity.
  - now rewrite IH.
Qed.

Lemma prefix_of_append (p s : string) : String.prefix p (p ++ s) = true.
Proof.
  induction p as [|ch p IH]; simpl.
  - now destruct s.
  - destruct (ascii_dec ch ch) as [_|Hne]; [exact IH | now elim Hne].
Qed.

(** What [bind] does, by the outcome of its first computation. *)
Lemma bind_returned {A B : Type} (c : Eff A) (k : A -> Eff B) w a w' :
  c w = Returned a w' -> bind c k w = k a w'.
Proof. unfold bind. now intros ->. Qed.

Lemma bind_thrown {A B : Type} (c : Eff A) (k : A -> Eff B) w e w' :
  c w = Thrown e w' -> bind c k w = Thrown e w'.
Proof. unfold bind. now intros ->. Qed.

Lemma bind_returned_inv {A B : Type} (c : Eff A) (k : A -> Eff B) w b w2 :
  bind c k w = Returned b w2 ->
  exists a w1, c w = Returned a w1 /\ k a w1 = Returned b w2.
Proof.
  unfold bind. destruct (c w) as [a w1|e w1]; intros H.
  - now exists a, w1.
  - discriminate H.
Qed.

(** [sendMail] is the prefix put before [m.generateMailTemplate().generate()]:
    same world, same exception if one is thrown. *)
Lemma sendMail_factors (m : Mailer) (w : World) :
  sendMail m w =
  map_outcome (append "Sending the following mail : ") (produced_text m w).
Proof.
  unfold sendMail, produced_text, bind.
  destruct (generateMailTemplate m w) as [t w1|e w1]; simpl; [|reflexivity].
  destruct (generate t w1) as [text w2|e w2]; reflexivity.
Qed.

(** The state [sendMail] leaves is the state its two calls leave. *)
Lemma sendMail_returned (m : Mailer) w t w1 text w2 :
  generateMailTemplate m w = Returned t w1 ->
  generate t w1 = Returned text w2 ->
  sendMail m w = Returned ("Sending the following mail : " ++ text) w2.
Proof.
  intros Hfactory Hgen. unfold sendMail.
  rewrite (bind_returned _ _ _ _ _ Hfactory).
  rewrite (bind_returned _ _ _ _ _ Hgen).
  reflexivity.
Qed.

Lemma sendMail_returned_inv (m : Mailer) w s w2 :
  sendMail m w = Returned s w2 ->
  exists t w1 text,
    generateMailTemplate m w = Returned t w1
    /\ generate t w1 = Returned text w2
    /\ s = "Sending the following mail : " ++ text.
Proof.
  unfold sendMail. intros H.
  apply bind_returned_inv in H. destruct H as (t & w1 & Hfactory & H).
  apply bind_returned_inv in H. destruct H as (text & w2' & Hgen & H).
  unfold ret in H. injection H as <- <-.
  now exists t, w1, text.
Qed.

Lemma clientCode_returned (m : Mailer) w s w' :
  sendMail m w = Returned s w' ->
  clientCode m w =
  Returned tt {| stdout := stdout w' ++ s ++ LF; store := store w' |}.
Proof.
  intros H. unfold clientCode.
  now rewrite (bind_returned _ _ _ _ _ H).
Qed.

(** [clientCode] has no handler: what [sendMail] throws goes through. *)
Lemma clientCode_thrown (m : Mailer) w e w' :
  sendMail m w = Thrown e w' -> clientCode m w = Thrown e w'.
Proof.
  intros H. unfold clientCode.
  now rewrite (bind_thrown _ _ _ _ _ H).
Qed.

Example clientCode_FailingMailer (w : World) :
  clientCode FailingMailer w = Thrown "no template" w.
Proof. reflexivity. Qed.

Lemma sendMail_Welcome (w : World) :
  sendMail WelcomeMailGenerator w =
  Returned "Sending the following mail : Welcome aboard! Thanks for signing up!" w.
Proof. reflexivity. Qed.

Lemma sendMail_NewsLetter (w : World) :
  sendMail NewsLetterMailGenerator w =
  Returned "Sending the following mail : Please enjoy our newsletter!" w.
Proof. reflexivity. Qed.

(** The two product classes are different objects: they return different
    texts. *)
Lemma products_differ (w : World) : WelcomeMailTemplate <> NewsLetterMailTemplate.
Proof.
  intros Heq.
  assert (H : generate WelcomeMailTemplate w = generate NewsLetterMailTemplate w)
    by now rewrite Heq.
  discriminate H.
Qed.

(** ** The claims *)

(** C1.  For each of the two creators, [sendMail()] returns the prefix
    "Sending the following mail : " put before the text that its product's
    [generate()] returns, that is the two complete sentences below; this
    holds in every world, which [sendMail] leaves as it found it. *)
Theorem sendMail_provided_creators (w : World) :
  sendMail WelcomeMailGenerator w =
    map_outcome (append "Sending the following mail : ")
                (generate WelcomeMailTemplate w)
  /\ sendMail WelcomeMailGenerator w =
       Returned "Sending the following mail : Welcome aboard! Thanks for signing up!" w
  /\ sendMail NewsLetterMailGenerator w =
       map_outcome (append "Sending the following mail : ")
                   (generate NewsLetterMailTemplate w)
  /\ sendMail NewsLetterMailGenerator w =
       Returned "Sending the following mail : Please enjoy our newsletter!" w.
Proof. repeat split. Qed.

(** C2.  The three top-level statements append exactly three lines to
    standard output, in this order: the welcome line, the divider "---" and
    the newsletter line.  From an empty output, the output is those three
    lines and nothing else; the rest of the state is untouched and the
    script ends normally. *)
Theorem main_output (w : World) :
  main w =
    Returned tt
      {| stdout :=
           stdout w
           ++ "Sending the following mail : Welcome aboard! Thanks for signing up!" ++ LF
           ++ "---" ++ LF
           ++ "Sending the following mail : Please enjoy our newsletter!" ++ LF;
         store := store w |}
  /\ main {| stdout := ""; store := store w |} =
       Returned tt
         {| stdout :=
              "Sending the following mail : Welcome aboard! Thanks for signing up!" ++ LF
              ++ "---" ++ LF
              ++ "Sending the following mail : Please enjoy our newsletter!" ++ LF;
            store := store w |}
  /\ lines (stdout (final_world (main {| stdout := ""; store := store w |}))) =
       [ "Sending the following mail : Welcome aboard! Thanks for signing up!";
         "---";
         "Sending the following mail : Please enjoy our newsletter!" ].
Proof.
  split; [|split; reflexivity].
  unfold main.
  rewrite (bind_returned _ _ _ _ _ (clientCode_returned _ _ _ _ (sendMail_Welcome w))).
  unfold bind at 1. unfold console_log at 1. cbv beta iota.
  rewrite (clientCode_returned _ _ _ _ (sendMail_NewsLetter _)).
  cbn [stdout store].
  now rewrite !string_append_assoc.
Qed.


(** C4.  [generate()] of each product class takes no input and returns its
    fixed text in every world, leaving the world as it was.  Hence any
    number of calls on products of the two classes, in any order, return
    the fixed texts, call by call, and change nothing. *)
Theorem generate_fixed_text :
  (forall w : World,
     generate WelcomeMailTemplate w =
       Returned "Welcome aboard! Thanks for signing up!" w)
  /\ (forall w : World,
        generate NewsLetterMailTemplate w =
          Returned "Please enjoy our newsletter!" w)
  /\ (forall (ts : list MailTemplate) (w : World),
        Forall provided_product ts ->
        exists rs,
          sequence (map generate ts) w = Returned rs w
          /\ Forall2 fixed_text ts rs).
Proof.
  split; [reflexivity|]. split; [reflexivity|].
  intros ts w Hts. induction Hts as [|t ts Ht _ IH].
  - exists []. split; [reflexivity | constructor].
  - destruct IH as (rs & Hrun & Hrs).
    destruct Ht as [-> | ->].
    + exists ("Welcome aboard! Thanks for signing up!" :: rs). split.
      * cbn [map sequence]. unfold bind at 1. cbn [generate WelcomeMailTemplate ret].
        unfold bind. now rewrite Hrun.
      * constructor; [left | exact Hrs]. now split.
    + exists ("Please enjoy our newsletter!" :: rs). split.
      * cbn [map sequence]. unfold bind at 1. cbn [generate NewsLetterMailTemplate ret].
        unfold bind. now rewrite Hrun.
      * constructor; [right | exact Hrs]. now split.
Qed.

(** C5.  What [sendMail()] does is determined by what
    [generateMailTemplate().generate()] does: [sendMail] is the fixed prefix
    put before that text (same world, same exception), so two mailers whose
    produced texts agree have [sendMail()] results that agree. *)
Theorem sendMail_determined_by_product :
  (forall (m : Mailer) (w : World),
     sendMail m w =
       map_outcome (append "Sending the following mail : ") (produced_text m w))
  /\ (forall (m1 m2 : Mailer) (w : World),
        produced_text m1 w = produced_text m2 w ->
        sendMail m1 w = sendMail m2 w)
  /\ (forall (m1 m2 : Mailer) (w1 w2 w1' w2' : World) (text : string),
        produced_text m1 w1 = Returned text w1' ->
        produced_text m2 w2 = Returned text w2' ->
        exists s,
          sendMail m1 w1 = Returned s w1' /\ sendMail m2 w2 = Returned s w2').
Proof.
  split; [exact sendMail_factors|]. split.
  - intros m1 m2 w H. rewrite !sendMail_factors. now rewrite H.
  - intros m1 m2 w1 w2 w1' w2' text H1 H2.
    exists ("Sending the following mail : " ++ text).
    rewrite !sendMail_factors, H1, H2. now split.
Qed.

(** C6, as amended.  [sendMail()] calls [generateMailTemplate()] on its
    receiver, then [generate()] on the product, and has no side effect of
    its own: for every [Mailer], the world it leaves is the world the second
    call left (hence the world it found, whenever the two calls change
    nothing), and the value is the prefix before the product's text.
    [generate()] of both product classes and [sendMail()] of both creators
    of the file leave the world exactly as they found it.  That every
    [Mailer] leaves the world unchanged does not hold: a subclass decides
    what its factory method does. *)
Theorem sendMail_no_side_effects :
  (forall (m : Mailer) (w w1 w2 : World) (t : MailTemplate) (text : string),
     generateMailTemplate m w = Returned t w1 ->
     generate t w1 = Returned text w2 ->
     sendMail m w = Returned ("Sending the following mail : " ++ text) w2)
  /\ (forall w : World,
        final_world (generate WelcomeMailTemplate w) = w
        /\ final_world (generate NewsLetterMailTemplate w) = w
        /\ final_world (sendMail WelcomeMailGenerator w) = w
        /\ final_world (sendMail NewsLetterMailGenerator w) = w).
Proof.
  split.
  - intros m w w1 w2 t text. apply sendMail_returned.
  - intros w. repeat split.
Qed.

(** C7.  No operation of the program fails: in every world, [generate()] of
    both product classes, [sendMail()] of both creators, [clientCode] on both
    creators and the whole script return; none throws.  (Every function of
    the embedding is total, so each call also terminates.)  [clientCode]
    itself adds no failure: on any [Mailer] whose [sendMail()] returns, it
    returns. *)
Theorem no_operation_fails :
  (forall w : World,
     returned (generate WelcomeMailTemplate w) = true
     /\ returned (generate NewsLetterMailTemplate w) = true
     /\ returned (sendMail WelcomeMailGenerator w) = true
     /\ returned (sendMail NewsLetterMailGenerator w) = true
     /\ returned (clientCode WelcomeMailGenerator w) = true
     /\ returned (clientCode NewsLetterMailGenerator w) = true
     /\ returned (main w) = true)
  /\ (forall (m : Mailer) (w : World),
        returned (sendMail m w) = true -> returned (clientCode m w) = true).
Proof.
  split.
  - intros w. repeat split.
  - intros m w. unfold clientCode, bind.
    destruct (sendMail m w) as [s w'|e w']; simpl; [reflexivity | discriminate].
Qed.

(** C8.  The factory method of each creator of the file takes no argument
    and does not depend on the state: in every world
    [WelcomeMailGenerator] yields a [WelcomeMailTemplate] and
    [NewsLetterMailGenerator] a [NewsLetterMailTemplate], the world is
    unchanged, and the two products are different. *)
Theorem generateMailTemplate_fixed_product (w : World) :
  generateMailTemplate WelcomeMailGenerator w = Returned WelcomeMailTemplate w
  /\ generateMailTemplate NewsLetterMailGenerator w =
       Returned NewsLetterMailTemplate w
  /\ WelcomeMailTemplate <> NewsLetterMailTemplate.
Proof.
  split; [reflexivity|]. split; [reflexivity|]. exact (products_differ w).
Qed.

(** C9.  The two creators can be told apart: in every world their
    [sendMail()] results are different strings, and the first and the third
    line that the script writes differ. *)
Theorem creators_distinct (w : World) :
  (exists s1 s2,
     sendMail WelcomeMailGenerator w = Returned s1 w
     /\ sendMail NewsLetterMailGenerator w = Returned s2 w
     /\ s1 <> s2)
  /\ (exists l1 l2 l3,
        lines (stdout (final_world (main {| stdout := ""; store := store w |}))) =
          [l1; l2; l3]
        /\ l1 <> l3).
Proof.
  split.
  - exists "Sending the following mail : Welcome aboard! Thanks for signing up!",
           "Sending the following mail : Please enjoy our newsletter!".
    repeat split. discriminate.
  - exists "Sending the following mail : Welcome aboard! Thanks for signing up!",
           "---",
           "Sending the following mail : Please enjoy our newsletter!".
    split; [reflexivity | discriminate].
Qed.

(** C10.  Whatever the [Mailer], a string returned by [sendMail()] begins
    with "Sending the following mail : ", so it is not empty and is not the
    divider "---".  In the script's output the first and third lines have the
    prefix and the second, the divider, has not. *)
Theorem sendMail_prefix :
  (forall (m : Mailer) (w w' : World) (s : string),
     sendMail m w = Returned s w' ->
     String.prefix "Sending the following mail : " s = true
     /\ s <> ""
     /\ s <> "---")
  /\ (forall w : World,
        exists l1 l3,
          lines (stdout (final_world (main {| stdout := ""; store := store w |}))) =
            [l1; "---"; l3]
          /\ String.prefix "Sending the following mail : " l1 = true
          /\ String.prefix "Sending the following mail : " l3 = true
          /\ String.prefix "Sending the following mail : " "---" = false).
Proof.
  split.
  - intros m w w' s H.
    apply sendMail_returned_inv in H. destruct H as (t & w1 & text & _ & _ & ->).
    split; [apply prefix_of_append|]. split; discriminate.
  - intros w.
    exists "Sending the following mail : Welcome aboard! Thanks for signing up!",
           "Sending the following mail : Please enjoy our newsletter!".
    repeat split.
Qed.

(** ** Further properties of the code *)

Lemma string_append_empty_r (a : string) : a ++ "" = a.
Proof.
  induction a as [|ch a IH]; simpl; [reflexivity | now rewrite IH].
Qed.


Lemma lines_cons (c : ascii) (s : string) :
  lines (String c s) =
    if Ascii.eqb c (ascii_of_nat 10) then EmptyString :: lines s
    else match lines s with
         | [] => [String c EmptyString]
         | l :: ls => String c l :: ls
         end.
Proof. reflexivity. Qed.

Lemma lines_nonempty (c : ascii) (s : string) : lines (String c s) <> [].
Proof.
  simpl. destruct (Ascii.eqb c (ascii_of_nat 10)); [discriminate|].
  destruct (lines s); discriminate.
Qed.

(** After an output with no open line, what is written next starts new
    lines. *)
Lemma lines_append (a b : string) :
  ends_lines a = true -> lines (a ++ b) = (lines a ++ lines b)%list.
Proof.
  induction a as [|c a IH]; intros Ha.
  - reflexivity.
  - destruct a as [|c' a'].
    + simpl in Ha. simpl. now rewrite Ha.
    + assert (Ha' : ends_lines (String c' a') = true) by exact Ha.
      specialize (IH Ha').
      change (String c (String c' a') ++ b)%string
        with (String c (String c' a' ++ b)).
      rewrite (lines_cons c (String c' a' ++ b)), (lines_cons c (String c' a')), IH.
      pose proof (lines_nonempty c' a') as Hne.
      destruct (Ascii.eqb c (ascii_of_nat 10)); [reflexivity|].
      destruct (lines (String c' a')) as [|l ls]; [now elim Hne | reflexivity].
Qed.

(** A text with no line feed, followed by one, is one line. *)
Lemma lines_single_line (s : string) :
  single_line s = true -> lines (s ++ LF) = [s].
Proof.
  induction s as [|c s IH]; intros Hs.
  - reflexivity.
  - simpl in Hs. simpl.
    destruct (Ascii.eqb c (ascii_of_nat 10)); [discriminate Hs|].
    now rewrite (IH Hs).
Qed.


Lemma ends_lines_append_LF (a : string) : ends_lines (a ++ LF) = true.
Proof.
  induction a as [|c a IH].
  - reflexivity.
  - destruct a as [|c' a']; [reflexivity | exact IH].
Qed.

Lemma lines_written (ss : list string) :
  Forall (fun s => single_line s = true) ss -> lines (written ss) = ss.
Proof.
  induction 1 as [|s ss Hs _ IH].
  - reflexivity.
  - cbn [written]. rewrite <- string_append_assoc.
    rewrite (lines_append _ _ (ends_lines_append_LF s)).
    now rewrite (lines_single_line s Hs), IH.
Qed.

(** X1.  Neither [sendMail] nor [clientCode] has a handler.  When the
    factory method throws, or returns a product whose [generate()] throws,
    [sendMail()] throws that exception in the world the failing call left
    (what was done before stays done; [generate()] is not called after a
    failed factory method).  When [sendMail()] throws, [clientCode] throws
    the same exception and writes nothing. *)
Theorem failure_propagates (m : Mailer) (w w' : World) (e : string) :
  (generateMailTemplate m w = Thrown e w'
   \/ (exists t w1,
         generateMailTemplate m w = Returned t w1
         /\ generate t w1 = Thrown e w') ->
   sendMail m w = Thrown e w')
  /\ (sendMail m w = Thrown e w' -> clientCode m w = Thrown e w').
Proof.
  split.
  - intros [Hfactory | (t & w1 & Hfactory & Hgen)]; unfold sendMail.
    + now apply bind_thrown.
    + rewrite (bind_returned _ _ _ _ _ Hfactory). now apply bind_thrown.
  - apply clientCode_thrown.
Qed.



(** X4.  [clientCode] works on any number of creators, one after the other:
    for mailers whose [sendMail()] returns a text and changes nothing, the
    calls all return and the output grows by their texts, each followed by
    a line feed, in the order of the calls; no other state changes.  When
    no text has a line feed and the output had no open line, the calls add
    exactly one line each. *)
Theorem clientCode_in_sequence (ms : list Mailer) (ss : list string) :
  Forall2 sends ms ss ->
  forall w : World,
    sequence (map clientCode ms) w =
      Returned (map (fun _ => tt) ms)
               {| stdout := stdout w ++ written ss; store := store w |}
    /\ (ends_lines (stdout w) = true ->
        Forall (fun s => single_line s = true) ss ->
        lines (stdout w ++ written ss) = (lines (stdout w) ++ ss)%list).
Proof.
  intros Hms w. split.
  - revert w. induction Hms as [|m s ms ss Hm _ IH]; intros w.
    + cbn [map sequence written]. unfold ret.
      rewrite string_append_empty_r. now destruct w.
    + cbn [map sequence written].
      rewrite (bind_returned _ _ _ _ _ (clientCode_returned _ _ _ _ (Hm w))).
      rewrite (bind_returned _ _ _ _ _ (IH _)).
      unfold ret. cbn [stdout store].
      now rewrite !string_append_assoc.
  - intros Hout Hss.
    now rewrite (lines_append _ _ Hout), (lines_written _ Hss).
Qed.

End Program.

Arguments Returned {Store A} a w.
Arguments Thrown {Store A} e w.

(** ** The statements with hypotheses, applied

    Each is applied in the world of a program that has written nothing yet
    and has no other state. *)


(** C4 on three calls: welcome, newsletter, welcome again. *)
Lemma generate_fixed_text_witness :
  Forall (provided_product (Store := unit))
         [WelcomeMailTemplate; NewsLetterMailTemplate; WelcomeMailTemplate]
  /\ exists rs,
       sequence (Store := unit)
         (map generate [WelcomeMailTemplate; NewsLetterMailTemplate; WelcomeMailTemplate])
         {| stdout := ""; store := tt |}
       = Returned rs {| stdout := ""; store := tt |}
       /\ Forall2 (fixed_text (Store := unit))
            [WelcomeMailTemplate; NewsLetterMailTemplate; WelcomeMailTemplate] rs.
Proof.
  assert (H : Forall (provided_product (Store := unit))
                [WelcomeMailTemplate; NewsLetterMailTemplate; WelcomeMailTemplate]).
  { repeat (apply Forall_cons || apply Forall_nil);
      [left | right | left]; reflexivity. }
  split; [exact H|].
  exact (proj2 (proj2 (generate_fixed_text (Store := unit))) _
           {| stdout := ""; store := tt |} H).
Defined.

(** C5 at the welcome creator and [SplitWelcomeMailer], whose product builds
    the same text in another way. *)
Lemma sendMail_determined_by_product_witness :
  produced_text (Store := unit) WelcomeMailGenerator {| stdout := ""; store := tt |} =
    produced_text SplitWelcomeMailer {| stdout := ""; store := tt |}
  /\ sendMail (Store := unit) WelcomeMailGenerator {| stdout := ""; store := tt |} =
       sendMail SplitWelcomeMailer {| stdout := ""; store := tt |}.
Proof.
  split; [reflexivity|].
  apply (proj1 (proj2 (sendMail_determined_by_product (Store := unit)))).
  reflexivity.
Defined.

(** C6 at [LoggingMailer]: the factory method writes, [generate] does not,
    and [sendMail] ends in the world the two calls left. *)
Lemma sendMail_no_side_effects_witness :
  generateMailTemplate (Store := unit) LoggingMailer {| stdout := ""; store := tt |} =
    Returned WelcomeMailTemplate {| stdout := "creating" ++ LF; store := tt |}
  /\ generate (Store := unit) WelcomeMailTemplate {| stdout := "creating" ++ LF; store := tt |} =
       Returned "Welcome aboard! Thanks for signing up!"
                {| stdout := "creating" ++ LF; store := tt |}
  /\ sendMail (Store := unit) LoggingMailer {| stdout := ""; store := tt |} =
       Returned "Sending the following mail : Welcome aboard! Thanks for signing up!"
                {| stdout := "creating" ++ LF; store := tt |}.
Proof.
  split; [reflexivity|]. split; [reflexivity|].
  apply (proj1 (sendMail_no_side_effects (Store := unit)) LoggingMailer
           {| stdout := ""; store := tt |}
           {| stdout := "creating" ++ LF; store := tt |}
           {| stdout := "creating" ++ LF; store := tt |}
           WelcomeMailTemplate
           "Welcome aboard! Thanks for signing up!");
    reflexivity.
Defined.

(** C6 as first stated, with "every [Mailer] leaves all state unchanged",
    fails: [sendMail()] of [LoggingMailer] returns normally and leaves a
    line on standard output that was not there before. *)
Lemma sendMail_LoggingMailer_changes_world :
  final_world (sendMail (Store := unit) LoggingMailer
                 {| stdout := ""; store := tt |}) =
    {| stdout := "creating" ++ LF; store := tt |}
  /\ ~ (forall (m : @Mailer unit) (w : @World unit),
          final_world (sendMail m w) = w).
Proof.
  split; [reflexivity|].
  intros H.
  specialize (H LoggingMailer {| stdout := ""; store := tt |}).
  discriminate H.
Qed.

(** C7 at the newsletter creator. *)
Lemma no_operation_fails_witness :
  returned (sendMail (Store := unit) NewsLetterMailGenerator
              {| stdout := ""; store := tt |}) = true
  /\ returned (clientCode (Store := unit) NewsLetterMailGenerator
                 {| stdout := ""; store := tt |}) = true.
Proof.
  split; [reflexivity|].
  apply (proj2 (no_operation_fails (Store := unit))).
  reflexivity.
Defined.

(** C10 at [LoggingMailer]. *)
Lemma sendMail_prefix_witness :
  sendMail (Store := unit) LoggingMailer {| stdout := ""; store := tt |} =
    Returned "Sending the following mail : Welcome aboard! Thanks for signing up!"
             {| stdout := "creating" ++ LF; store := tt |}
  /\ String.prefix "Sending the following mail : "
       "Sending the following mail : Welcome aboard! Thanks for signing up!" = true.
Proof.
  split; [reflexivity|].
  apply (proj1 (sendMail_prefix (Store := unit)) LoggingMailer
           {| stdout := ""; store := tt |}
           {| stdout := "creating" ++ LF; store := tt |}).
  reflexivity.
Defined.

(** X1 at [BrokenTemplateMailer]: the factory method writes its line, the
    product throws, and [clientCode] ends with that exception, having
    written nothing more. *)
Lemma failure_propagates_witness :
  generateMailTemplate (Store := unit) BrokenTemplateMailer
      {| stdout := ""; store := tt |} =
    Returned BrokenTemplate {| stdout := "creating" ++ LF; store := tt |}
  /\ generate (Store := unit) BrokenTemplate
         {| stdout := "creating" ++ LF; store := tt |} =
       Thrown "no text" {| stdout := "creating" ++ LF; store := tt |}
  /\ clientCode (Store := unit) BrokenTemplateMailer
         {| stdout := ""; store := tt |} =
       Thrown "no text" {| stdout := "creating" ++ LF; store := tt |}.
Proof.
  split; [reflexivity|]. split; [reflexivity|].
  apply (proj2 (failure_propagates (Store := unit) BrokenTemplateMailer
                  {| stdout := ""; store := tt |}
                  {| stdout := "creating" ++ LF; store := tt |}
                  "no text")).
  apply (proj1 (failure_propagates (Store := unit) BrokenTemplateMailer
                  {| stdout := ""; store := tt |}
                  {| stdout := "creating" ++ LF; store := tt |}
                  "no text")).
  right. exists BrokenTemplate, {| stdout := "creating" ++ LF; store := tt |}.
  split; reflexivity.
Defined.



(** X4 on the two creators of the file followed by [SplitWelcomeMailer]. *)
Lemma clientCode_in_sequence_witness :
  Forall2 (sends (Store := unit))
    [WelcomeMailGenerator; NewsLetterMailGenerator; SplitWelcomeMailer]
    [ "Sending the following mail : Welcome aboard! Thanks for signing up!";
      "Sending the following mail : Please enjoy our newsletter!";
      "Sending the following mail : Welcome aboard! Thanks for signing up!" ]
  /\ sequence (Store := unit)
       (map clientCode
          [WelcomeMailGenerator; NewsLetterMailGenerator; SplitWelcomeMailer])
       {| stdout := ""; store := tt |} =
     Returned [tt; tt; tt]
       {| stdout :=
            "Sending the following mail : Welcome aboard! Thanks for signing up!" ++ LF
            ++ "Sending the following mail : Please enjoy our newsletter!" ++ LF
            ++ "Sending the following mail : Welcome aboard! Thanks for signing up!" ++ LF;
          store := tt |}.
Proof.
  assert (H : Forall2 (sends (Store := unit))
                [WelcomeMailGenerator; NewsLetterMailGenerator; SplitWelcomeMailer]
                [ "Sending the following mail : Welcome aboard! Thanks for signing up!";
                  "Sending the following mail : Please enjoy our newsletter!";
                  "Sending the following mail : Welcome aboard! Thanks for signing up!" ]).
  { repeat (apply Forall2_cons || apply Forall2_nil); intros w; reflexivity. }
  split; [exact H|].
  exact (proj1 (clientCode_in_sequence (Store := unit) _ _ H
                  {| stdout := ""; store := tt |})).
Defined.
